(** * Load-test profiles of ChatGPT Philippines

    A shallow embedding of the two Locust profiles of the repository,
    [load-testing/locustfile.py] and [loadtesting/locustfile.py], and of
    the parts of the load-generation engine that the specification
    describes around them.

    Python integers are [Z], strings are [string], lists are [list], and a
    dict literal is an association list in source order wrapped in [JObj].
    A task method is a function of the user object ([self]), of the draws
    it takes from [random], and of the response the target returned; it
    gives back the user object, the request it issued and the mark it put
    on the response ([response.success()] / [response.failure(msg)]). *)

From Stdlib Require Import ZArith String Ascii List Lia DecimalString.
From Stdlib Require DecimalPos DecimalZ.
From stdpp Require Import base gmap strings list fin_maps.

Set Warnings "-register-all".
Set Default Proof Using "Type".

Local Open Scope Z_scope.
Local Open Scope string_scope.

(** ** The Python and Locust surface the profiles use *)

(** [str(n)] for an int, as an f-string prints it. *)
Definition str (n : Z) : string := NilZero.string_of_int (Z.to_int n).

(** [sep.join(seq)]. *)
Definition join (sep : string) (seq : list string) : string :=
  String.concat sep seq.

(** [s * n] on a string. *)
Fixpoint repeat_str (s : string) (n : nat) : string :=
  match n with
  | O => ""
  | S k => s +:+ repeat_str s k
  end.

(** [random.choice(seq)]: [r] is the index the generator draws.  The
    sequences of the profiles are non-empty literals (Python raises
    IndexError on an empty one). *)
Definition random_choice (seq : list string) (r : nat) : string :=
  nth (r `mod` length seq)%nat seq "".

(** [random.randint(a, b)], both ends included; [r] is the generator's draw. *)
Definition random_randint (a b : Z) (r : nat) : Z :=
  a + Z.of_nat r `mod` (b - a + 1).

(** [needle in haystack] on strings. *)
Fixpoint contains (needle haystack : string) : bool :=
  String.prefix needle haystack
  || match haystack with
     | EmptyString => false
     | String _ rest => contains needle rest
     end.

(** [s.lower()] on ASCII letters. *)
Definition lower_ascii (c : ascii) : ascii :=
  let n := nat_of_ascii c in
  if ((65 <=? n) && (n <=? 90))%nat then ascii_of_nat (n + 32) else c.

Fixpoint lower (s : string) : string :=
  match s with
  | EmptyString => EmptyString
  | String c rest => String (lower_ascii c) (lower rest)
  end.

(** The JSON values the payloads are built from. *)
Inductive Json : Type :=
  | JStr (s : string)
  | JArr (items : list Json)
  | JObj (fields : list (string * Json)).

(** [d[key]] on a dict literal. *)
Fixpoint assoc (key : string) (fields : list (string * Json)) : option Json :=
  match fields with
  | [] => None
  | (k, v) :: rest => if String.eqb k key then Some v else assoc key rest
  end.

Definition get (key : string) (j : Json) : option Json :=
  match j with
  | JObj fields => assoc key fields
  | _ => None
  end.

(** [len(payload["messages"])]. *)
Definition messages_len (payload : Json) : option nat :=
  match get "messages" payload with
  | Some (JArr items) => Some (length items)
  | _ => None
  end.

(** One message of a chat transcript: [{"role": role, "content": content}]. *)
Definition message (role content : string) : Json :=
  JObj [("role", JStr role); ("content", JStr content)].

(** The response object a task inspects; the profiles read nothing but
    [status_code]. *)
Record Response := { status_code : Z }.

(** The arguments of one [self.client.get/post] call.  A keyword the call
    does not pass is [None]. *)
Record Request := {
  method : string;
  url : string;
  json : option Json;
  headers : option (list (string * string));
  catch_response : bool;
  timeout : option Z;
  name : option string
}.

(** The mark a task puts on a caught response. *)
Inductive Verdict : Type :=
  | Success
  | Failure (reason : string).

(** What one task invocation yields besides the user object: the request,
    and the mark ([None] where the task does not catch the response and
    leaves the verdict to the engine). *)
Record Call := {
  request : Request;
  verdict : option Verdict
}.

(** [@task(weight)] with its [@tag]s, as a declaration table entry. *)
Record TaskDecl (T : Type) := {
  task : T;
  weight : Z;
  tags : gset string
}.
Arguments task {T} _.
Arguments weight {T} _.
Arguments tags {T} _.

(** ** load-testing/locustfile.py *)

Module load_testing.

Definition SAMPLE_PROMPTS : list string := [
  "Write a product description for a new smartphone";
  "Create a marketing email for a summer sale";
  "Explain the benefits of cloud computing";
  "Write a blog post about SEO best practices";
  "Translate this text to Spanish: Hello, how are you?";
  "Summarize the importance of content marketing";
  "Generate social media captions for a coffee shop";
  "Write code to reverse a string in Python";
  "Create a business plan outline for a startup";
  "Explain machine learning in simple terms"
].

Definition TOOL_ENDPOINTS : list string := [
  "/api/tools/grammar-check";
  "/api/tools/translator";
  "/api/tools/summarizer";
  "/api/tools/paraphraser";
  "/api/tools/content-generator";
  "/api/tools/seo-analyzer";
  "/api/tools/code-generator";
  "/api/tools/email-writer"
].

(** The attributes [on_start] gives a [ChatUser]: the two the profile sets
    itself.  The HTTP client [self.client], with the cookies it keeps, is
    Locust's and is no part of this record. *)
Record ChatUser := {
  session_id : string;
  messages : list Json
}.

Definition on_start (r : nat) : ChatUser :=
  {| session_id := "session_" +:+ str (random_randint 1000 9999 r);
     messages := [] |}.

Definition chat_simple (self : ChatUser) (r : nat) (response : Response)
  : ChatUser * Call :=
  let prompt := random_choice SAMPLE_PROMPTS r in
  let payload :=
    JObj [("messages", JArr [message "user" prompt]);
          ("model", JStr "claude-3-7-sonnet-20250219")] in
  (self,
   {| request := {| method := "POST"; url := "/api/chat";
                    json := Some payload; headers := None;
                    catch_response := true; timeout := None;
                    name := Some "/api/chat [simple]" |};
      verdict :=
        if (status_code response =? 200)%Z then Some Success
        else if (status_code response =? 429)%Z then Some (Failure "Rate limited")
        else Some (Failure ("Got status code " +:+ str (status_code response)))
   |}).

Definition chat_conversation (self : ChatUser) (r : nat) (response : Response)
  : ChatUser * Call :=
  let self :=
    if (length (messages self) <? 2)%nat then
      let prompt := random_choice SAMPLE_PROMPTS r in
      {| session_id := session_id self;
         messages := ((messages self ++ [message "user" prompt])
                        ++ [message "assistant" "This is a test response."])%list |}
    else self in
  let follow_up := "Can you explain that in more detail?" in
  let messages := (messages self ++ [message "user" follow_up])%list in
  let payload :=
    JObj [("messages", JArr messages);
          ("model", JStr "claude-3-7-sonnet-20250219")] in
  (self,
   {| request := {| method := "POST"; url := "/api/chat";
                    json := Some payload; headers := None;
                    catch_response := true; timeout := None;
                    name := Some "/api/chat [conversation]" |};
      verdict :=
        if (status_code response =? 200)%Z then Some Success
        else if (status_code response =? 429)%Z then Some (Failure "Rate limited")
        else Some (Failure ("Got status code " +:+ str (status_code response)))
   |}).

Definition test_tool_endpoint (self : ChatUser) (r : nat) (response : Response)
  : ChatUser * Call :=
  let endpoint := random_choice TOOL_ENDPOINTS r in
  let payload :=
    JObj [("text", JStr "This is a sample text for testing the AI tool functionality.");
          ("options", JObj [])] in
  (self,
   {| request := {| method := "POST"; url := endpoint;
                    json := Some payload; headers := None;
                    catch_response := true; timeout := None;
                    name := Some (endpoint +:+ " [tool]") |};
      verdict :=
        if (status_code response =? 200)%Z then Some Success
        else if (status_code response =? 429)%Z then Some (Failure "Rate limited")
        else Some (Failure ("Got status code " +:+ str (status_code response)))
   |}).

Definition check_health (self : ChatUser) (response : Response)
  : ChatUser * Call :=
  (self,
   {| request := {| method := "GET"; url := "/api/health";
                    json := None; headers := None;
                    catch_response := true; timeout := None;
                    name := Some "/api/health" |};
      verdict :=
        if (status_code response =? 200)%Z then Some Success
        else Some (Failure ("Health check failed with " +:+ str (status_code response)))
   |}).

Definition view_homepage (self : ChatUser) (response : Response)
  : ChatUser * Call :=
  (self,
   {| request := {| method := "GET"; url := "/";
                    json := None; headers := None;
                    catch_response := false; timeout := None;
                    name := Some "Homepage" |};
      verdict := None |}).

(** [HeavyUser] and [BurstUser] define no [on_start] and keep no attribute
    of their own: their tasks depend on the response alone. *)
Definition chat_heavy (response : Response) : Call :=
  let large_prompt :=
    "Please analyze the following text: "
      +:+ repeat_str (join " " SAMPLE_PROMPTS) 20 in
  let payload :=
    JObj [("messages", JArr [message "user" large_prompt]);
          ("model", JStr "claude-sonnet-4-20250514")] in
  {| request := {| method := "POST"; url := "/api/chat";
                   json := Some payload; headers := None;
                   catch_response := true; timeout := Some 60;
                   name := Some "/api/chat [heavy]" |};
     verdict :=
       if (status_code response =? 200)%Z then Some Success
       else if (status_code response =? 429)%Z then Some (Failure "Rate limited")
       else Some (Failure ("Got status code " +:+ str (status_code response)))
  |}.

Definition rapid_requests (response : Response) : Call :=
  let payload :=
    JObj [("messages", JArr [message "user" "Quick test"])] in
  {| request := {| method := "POST"; url := "/api/chat";
                   json := Some payload; headers := None;
                   catch_response := true; timeout := None;
                   name := Some "/api/chat [burst]" |};
     verdict :=
       if (status_code response =? 200)%Z then Some Success
       else if (status_code response =? 429)%Z then Some Success
       else Some (Failure ("Got status code " +:+ str (status_code response)))
  |}.

(** The task methods of [ChatUser], and the call that runs one of them. *)
Inductive ChatUserTask : Type :=
  | ChatSimple
  | ChatConversation
  | TestToolEndpoint
  | CheckHealth
  | ViewHomepage.

Definition invoke (t : ChatUserTask) (self : ChatUser) (r : nat)
    (response : Response) : ChatUser * Call :=
  match t with
  | ChatSimple => chat_simple self r response
  | ChatConversation => chat_conversation self r response
  | TestToolEndpoint => test_tool_endpoint self r response
  | CheckHealth => check_health self response
  | ViewHomepage => view_homepage self response
  end.

(** The [@task(n)] decorations of [ChatUser], in source order; no task of
    this file carries a [@tag]. *)
Definition ChatUser_tasks : list (TaskDecl ChatUserTask) := [
  {| task := ChatSimple; weight := 10; tags := ∅ |};
  {| task := ChatConversation; weight := 5; tags := ∅ |};
  {| task := TestToolEndpoint; weight := 3; tags := ∅ |};
  {| task := CheckHealth; weight := 1; tags := ∅ |};
  {| task := ViewHomepage; weight := 1; tags := ∅ |}
].

End load_testing.

(** ** loadtesting/locustfile.py *)

Module loadtesting.

(** The attributes [on_start] gives a [ChatGPTPhilippinesUser]. *)
Record ChatGPTPhilippinesUser := {
  prompts : list string;
  models : list string
}.

Definition on_start : ChatGPTPhilippinesUser :=
  {| prompts := [
       "What is the capital of the Philippines?";
       "Explain machine learning in simple terms";
       "Write a short story about Manila";
       "Translate 'Hello, how are you?' to Tagalog";
       "Summarize the benefits of AI";
       "Write a business plan for a coffee shop";
       "Check grammar: 'I goes to the store yesterday'";
       "Paraphrase: 'The quick brown fox jumps over the lazy dog'";
       "Generate a slogan for a tech startup";
       "Write an essay about climate change"
     ];
     models := [
       "claude-3-5-sonnet-20241022";
       "claude-3-7-sonnet-20250219";
       "claude-3-haiku-20240307"
     ] |}.

Definition json_headers : option (list (string * string)) :=
  Some [("Content-Type", "application/json")].

Definition chat_endpoint (self : ChatGPTPhilippinesUser) (r1 r2 : nat)
    (response : Response) : Call :=
  let prompt := random_choice (prompts self) r1 in
  let model := random_choice (models self) r2 in
  let payload :=
    JObj [("messages", JArr [message "user" prompt]);
          ("model", JStr model)] in
  {| request := {| method := "POST"; url := "/api/chat";
                   json := Some payload; headers := json_headers;
                   catch_response := true; timeout := None;
                   name := None |};
     verdict :=
       if (status_code response =? 200)%Z then Some Success
       else if (status_code response =? 429)%Z then Some (Failure "Rate limited")
       else Some (Failure ("Failed with status " +:+ str (status_code response)))
  |}.

Definition translate_endpoint (self : ChatGPTPhilippinesUser) (r1 r2 : nat)
    (response : Response) : Call :=
  let payload :=
    JObj [("text", JStr (random_choice (prompts self) r1));
          ("targetLanguage",
           JStr (random_choice ["Tagalog"; "Cebuano"; "Ilocano"] r2))] in
  {| request := {| method := "POST"; url := "/api/translate";
                   json := Some payload; headers := json_headers;
                   catch_response := true; timeout := None;
                   name := None |};
     verdict :=
       if (status_code response =? 200)%Z then Some Success
       else Some (Failure ("Failed with status " +:+ str (status_code response)))
  |}.

Definition grammar_check_endpoint (response : Response) : Call :=
  let payload :=
    JObj [("text", JStr "I goes to the store yesterday and buys some apples")] in
  {| request := {| method := "POST"; url := "/api/grammar-check";
                   json := Some payload; headers := json_headers;
                   catch_response := true; timeout := None;
                   name := None |};
     verdict :=
       if (status_code response =? 200)%Z then Some Success
       else Some (Failure ("Failed with status " +:+ str (status_code response)))
  |}.

Definition summarize_endpoint (response : Response) : Call :=
  let payload :=
    JObj [("text", JStr
      ("Artificial intelligence (AI) is intelligence demonstrated by machines, "
       +:+ "as opposed to natural intelligence displayed by animals including humans. "
       +:+ "AI research has been defined as the field of study of intelligent agents..."))] in
  {| request := {| method := "POST"; url := "/api/summarize";
                   json := Some payload; headers := json_headers;
                   catch_response := true; timeout := None;
                   name := None |};
     verdict :=
       if (status_code response =? 200)%Z then Some Success
       else Some (Failure ("Failed with status " +:+ str (status_code response)))
  |}.

Definition paraphrase_endpoint (response : Response) : Call :=
  let payload :=
    JObj [("text", JStr "The quick brown fox jumps over the lazy dog")] in
  {| request := {| method := "POST"; url := "/api/paraphrase";
                   json := Some payload; headers := json_headers;
                   catch_response := true; timeout := None;
                   name := None |};
     verdict :=
       if (status_code response =? 200)%Z then Some Success
       else Some (Failure ("Failed with status " +:+ str (status_code response)))
  |}.

Definition health_check (response : Response) : Call :=
  {| request := {| method := "GET"; url := "/api/monitoring/health";
                   json := None; headers := None;
                   catch_response := true; timeout := None;
                   name := None |};
     verdict :=
       if (status_code response =? 200)%Z then Some Success
       else Some (Failure ("Health check failed: " +:+ str (status_code response)))
  |}.

Definition metrics_check (response : Response) : Call :=
  {| request := {| method := "GET"; url := "/api/monitoring/metrics?format=json";
                   json := None; headers := None;
                   catch_response := true; timeout := None;
                   name := None |};
     verdict :=
       if (status_code response =? 200)%Z then Some Success
       else Some (Failure ("Metrics check failed: " +:+ str (status_code response)))
  |}.

(** [StressTestUser.stress_test_chat] and [PremiumUser.premium_request]
    post without catching the response. *)
Definition stress_test_chat (response : Response) : Call :=
  let payload :=
    JObj [("messages", JArr [message "user" "Quick test"]);
          ("model", JStr "claude-3-haiku-20240307")] in
  {| request := {| method := "POST"; url := "/api/chat";
                   json := Some payload; headers := None;
                   catch_response := false; timeout := None;
                   name := None |};
     verdict := None |}.

Definition premium_request (response : Response) : Call :=
  let payload :=
    JObj [("messages",
           JArr [message "user"
                   "Write a comprehensive business plan for a tech startup"]);
          ("model", JStr "claude-3-7-sonnet-20250219")] in
  {| request := {| method := "POST"; url := "/api/chat";
                   json := Some payload; headers := None;
                   catch_response := false; timeout := None;
                   name := None |};
     verdict := None |}.

(** The task methods of [ChatGPTPhilippinesUser], and the call that runs
    one of them. *)
Inductive UserTask : Type :=
  | ChatEndpoint
  | TranslateEndpoint
  | GrammarCheckEndpoint
  | SummarizeEndpoint
  | ParaphraseEndpoint
  | HealthCheck
  | MetricsCheck.

Definition invoke (t : UserTask) (self : ChatGPTPhilippinesUser)
    (r1 r2 : nat) (response : Response) : Call :=
  match t with
  | ChatEndpoint => chat_endpoint self r1 r2 response
  | TranslateEndpoint => translate_endpoint self r1 r2 response
  | GrammarCheckEndpoint => grammar_check_endpoint response
  | SummarizeEndpoint => summarize_endpoint response
  | ParaphraseEndpoint => paraphrase_endpoint response
  | HealthCheck => health_check response
  | MetricsCheck => metrics_check response
  end.

(** The [@task(n)] and [@tag(...)] decorations, in source order. *)
Definition ChatGPTPhilippinesUser_tasks : list (TaskDecl UserTask) := [
  {| task := ChatEndpoint; weight := 5; tags := {["chat"]} |};
  {| task := TranslateEndpoint; weight := 2; tags := {["translate"]} |};
  {| task := GrammarCheckEndpoint; weight := 2; tags := {["grammar"]} |};
  {| task := SummarizeEndpoint; weight := 2; tags := {["summarize"]} |};
  {| task := ParaphraseEndpoint; weight := 1; tags := {["paraphrase"]} |};
  {| task := HealthCheck; weight := 1; tags := {["monitoring"]} |};
  {| task := MetricsCheck; weight := 1; tags := {["monitoring"]} |}
].

End loadtesting.

(** ** The engine around the profiles

    Task selection and statistics are the engine's: the profiles only
    declare weights and tags and read the totals when the test stops. *)

Module Engine.

Inductive Result (E A : Type) : Type :=
  | Ok (a : A)
  | Err (e : E).
Arguments Ok {E A} _.
Arguments Err {E A} _.

(** *** TaskSelector *)

Inductive SelectError : Type :=
  | NoEligibleTask
  | DrawOutOfRange.

(** Modelled from the spec: the candidate test of [select], which is the
    engine's and not in the repository.  A task is a candidate when no
    filter is configured, or when its tag set is empty or intersects the
    active filter. *)
Definition eligible {T} (activeTagFilter : option (gset string))
    (d : TaskDecl T) : bool :=
  match activeTagFilter with
  | None => true
  | Some f => bool_decide (tags d = ∅) || bool_decide (tags d ∩ f ≠ ∅)
  end.

(** Modelled from the spec: the candidate set of [select], the tasks that
    pass the candidate test, in declaration order. *)
Definition candidates {T} (tasks : list (TaskDecl T))
    (activeTagFilter : option (gset string)) : list (TaskDecl T) :=
  List.filter (eligible activeTagFilter) tasks.

(** Modelled from the spec: the cumulative weights that [select] searches.
    Entry [i] is the sum of the first [i + 1] weights, on top of [acc]. *)
Fixpoint cumulative (acc : Z) (ws : list Z) : list Z :=
  match ws with
  | [] => []
  | w :: rest => (acc + w) :: cumulative (acc + w) rest
  end.

(** Modelled from the spec: [totalWeight], the sum of the weights. *)
Definition total_weight {T} (l : list (TaskDecl T)) : Z :=
  foldr (λ d acc, weight d + acc) 0 l.

(** Modelled from the spec: the binary search of [select] in the
    cumulative weights, for the first entry above [x]; the interval
    [lo, hi) halves until it is empty, which [length cum] rounds allow. *)
Fixpoint bisect_go (fuel : nat) (cum : list Z) (x : Z) (lo hi : nat) : nat :=
  match fuel with
  | O => lo
  | S fuel =>
      if (lo <? hi)%nat then
        let mid := ((lo + hi) / 2)%nat in
        if (x <? nth mid cum 0)%Z then bisect_go fuel cum x lo mid
        else bisect_go fuel cum x (mid + 1)%nat hi
      else lo
  end.

Definition bisect (cum : list Z) (x : Z) : nat :=
  bisect_go (length cum) cum x 0 (length cum).

(** Modelled from the spec: [select(tasks, activeTagFilter)], which is the
    engine's and not in the repository.  It fails with [NoEligibleTask]
    when the filter leaves no candidate; otherwise it searches the
    cumulative weights of the candidates for the one draw it is given.
    The spec defines the draw within [0, totalWeight) only; a draw past
    every candidate is reported as [DrawOutOfRange]. *)
Definition select {T} (tasks : list (TaskDecl T))
    (activeTagFilter : option (gset string)) (draw : Z)
  : Result SelectError T :=
  match candidates tasks activeTagFilter with
  | [] => Err NoEligibleTask
  | cands =>
      match cands !! bisect (cumulative 0 (weight <$> cands)) draw with
      | Some d => Ok (task d)
      | None => Err DrawOutOfRange
      end
  end.

(** Modelled from the spec: the selected task as a relation, for
    comparison with [select].  It is the task at the position of the
    candidate list whose share of the cumulative weight holds the draw. *)
Definition selects {T} (tasks : list (TaskDecl T))
    (activeTagFilter : option (gset string)) (draw : Z) (t : T) : Prop :=
  ∃ k d,
    candidates tasks activeTagFilter !! k = Some d
    ∧ task d = t
    ∧ (total_weight (take k (candidates tasks activeTagFilter)) ≤ draw
       < total_weight (take k (candidates tasks activeTagFilter)) + weight d)%Z.

(** *** StatsAggregator *)

(** Modelled from the spec: the verdicts of the classifier, the record of
    one request's outcome and the per-category entry of the aggregator. *)
Inductive Verdict : Type :=
  | Success
  | ExpectedFailure
  | Failure (reason : string).

Record RequestOutcome := {
  categoryName : string;
  statusCode : option Z;
  latencyMs : Z;
  errorKind : option string;
  timestamp : Z
}.

Record StatEntry := {
  count : Z;
  failureCount : Z;
  latencySum : Z;
  latencySquares : Z;
  latencyMin : Z;
  latencyMax : Z
}.

Definition is_failure (v : Verdict) : bool :=
  match v with
  | Failure _ => true
  | _ => false
  end.

(** Modelled from the spec: the entry of a category after its first
    outcome, and after one more. *)
Definition first_entry (o : RequestOutcome) (v : Verdict) : StatEntry :=
  {| count := 1;
     failureCount := if is_failure v then 1 else 0;
     latencySum := latencyMs o;
     latencySquares := latencyMs o * latencyMs o;
     latencyMin := latencyMs o;
     latencyMax := latencyMs o |}.

Definition next_entry (e : StatEntry) (o : RequestOutcome) (v : Verdict)
  : StatEntry :=
  {| count := count e + 1;
     failureCount := failureCount e + (if is_failure v then 1 else 0);
     latencySum := latencySum e + latencyMs o;
     latencySquares := latencySquares e + latencyMs o * latencyMs o;
     latencyMin := latencyMin e `min` latencyMs o;
     latencyMax := latencyMax e `max` latencyMs o |}.

(** Modelled from the spec: [StatsAggregator.record(category, outcome,
    verdict)], which is the engine's and not in the repository.  It
    appends the outcome to the category's entry, creating the entry on the
    category's first outcome. *)
Definition record (agg : gmap string StatEntry) (category : string)
    (o : RequestOutcome) (v : Verdict) : gmap string StatEntry :=
  match agg !! category with
  | None => <[category := first_entry o v]> agg
  | Some e => <[category := next_entry e o v]> agg
  end.

(** Modelled from the spec: [reset()] clears all state. *)
Definition reset : gmap string StatEntry := ∅.

(** Modelled from the spec: the count held for one category, and the sum
    of the counts over all categories. *)
Definition count_of (agg : gmap string StatEntry) (category : string) : Z :=
  match agg !! category with
  | Some e => count e
  | None => 0
  end.

Definition total_count (agg : gmap string StatEntry) : Z :=
  map_fold (λ _ e acc, count e + acc) 0 agg.

(** Modelled from the spec: one iteration of a virtual user's loop, as far
    as the statistics see it.  The request of virtual user [user] has
    produced [outcome], the classifier has given [classified], and the
    loop records them under the outcome's category. *)
Record Tick := {
  user : nat;
  outcome : RequestOutcome;
  classified : Verdict
}.

Definition user_tick (agg : gmap string StatEntry) (t : Tick)
  : gmap string StatEntry :=
  record agg (categoryName (outcome t)) (outcome t) (classified t).

(** Modelled from the spec: the aggregator after the iterations [ticks]
    of all virtual users, in the order it took them, from the [reset] of
    the test start. *)
Definition run_ticks (ticks : list Tick) : gmap string StatEntry :=
  foldl user_tick reset ticks.

(** The number of outcomes the iterations produced under one category. *)
Definition produced_in (category : string) (ticks : list Tick) : Z :=
  Z.of_nat (length (List.filter
    (λ t, String.eqb (categoryName (outcome t)) category) ticks)).

End Engine.

(** ** The response checks of the profiles

    Every task that catches its response marks it with the same chain:
    [200] is a success, then (for the chat tasks) [429], then everything
    else is a failure that names the status code. *)

Import load_testing.

(** A throttled failure: a failure whose reason has ["rate limited"] in
    it, letter case apart. *)
Definition rate_limited_failure_nocase (v : option Verdict) : bool :=
  match v with
  | Some (Failure reason) => contains "rate limited" (lower reason)
  | _ => false
  end.

(** The chat tasks of both files, the ones whose chain has a [429] arm:
    the text their last arm puts before the status code, and the mark. *)
Definition chat_tasks_checks (self : ChatUser)
    (other : loadtesting.ChatGPTPhilippinesUser) (r1 r2 : nat)
    (response : Response) : list (string * option Verdict) := [
  ("Got status code ", verdict (chat_simple self r1 response).2);
  ("Got status code ", verdict (chat_conversation self r1 response).2);
  ("Got status code ", verdict (test_tool_endpoint self r1 response).2);
  ("Got status code ", verdict (chat_heavy response));
  ("Failed with status ",
   verdict (loadtesting.chat_endpoint other r1 r2 response))
].

Definition chat_tasks_verdicts (self : ChatUser)
    (other : loadtesting.ChatGPTPhilippinesUser) (r1 r2 : nat)
    (response : Response) : list (option Verdict) :=
  (chat_tasks_checks self other r1 r2 response).*2.

(** [len(payload["messages"])] of the request a call issued. *)
Definition payload_messages (c : Call) : option nat :=
  json (request c) ≫= messages_len.

(** [run self steps]: the user object after the task invocations [steps],
    each with the draw it took and the response it got. *)
Fixpoint run (self : ChatUser) (steps : list (ChatUserTask * nat * Response))
  : ChatUser :=
  match steps with
  | [] => self
  | (t, r, response) :: rest => run (invoke t self r response).1 rest
  end.

Definition is_conversation (t : ChatUserTask) : bool :=
  match t with
  | ChatConversation => true
  | _ => false
  end.

(** The [timeout] a request is sent with: the call's own keyword when it
    passes one, the client's default otherwise. *)
Definition effective_timeout (default_timeout : option Z) (rq : Request)
  : option Z :=
  match timeout rq with
  | Some t => Some t
  | None => default_timeout
  end.

(** ** Every task of the two files, side by side *)

(** The calls of all the tasks of [load-testing/locustfile.py], in source
    order, each run on the same user object, draw and response. *)
Definition load_testing_calls (self : ChatUser) (r : nat)
    (response : Response) : list Call := [
  (chat_simple self r response).2;
  (chat_conversation self r response).2;
  (test_tool_endpoint self r response).2;
  (check_health self response).2;
  (view_homepage self response).2;
  chat_heavy response;
  rapid_requests response
].

(** The same for [loadtesting/locustfile.py]. *)
Definition loadtesting_calls (self : loadtesting.ChatGPTPhilippinesUser)
    (r1 r2 : nat) (response : Response) : list Call := [
  loadtesting.chat_endpoint self r1 r2 response;
  loadtesting.translate_endpoint self r1 r2 response;
  loadtesting.grammar_check_endpoint response;
  loadtesting.summarize_endpoint response;
  loadtesting.paraphrase_endpoint response;
  loadtesting.health_check response;
  loadtesting.metrics_check response;
  loadtesting.stress_test_chat response;
  loadtesting.premium_request response
].

(** A call is the burst task's when it reports under the burst name. *)
Definition is_burst (c : Call) : bool :=
  bool_decide (name (request c) = Some "/api/chat [burst]").

(** The paths the tasks of [load-testing/locustfile.py] request. *)
Definition load_testing_urls : list string :=
  ["/api/chat"; "/api/health"; "/"] ++ TOOL_ENDPOINTS.

(** [payload["messages"]] and [payload[key]] as a string, of the request a
    call issued. *)
Definition payload_list (c : Call) : option (list Json) :=
  match json (request c) ≫= get "messages" with
  | Some (JArr items) => Some items
  | _ => None
  end.

Definition payload_str (key : string) (c : Call) : option string :=
  match json (request c) ≫= get key with
  | Some (JStr s) => Some s
  | _ => None
  end.

(** The steps of a run with every response replaced by [response]. *)
Definition with_response (response : Response)
    (steps : list (ChatUserTask * nat * Response))
  : list (ChatUserTask * nat * Response) :=
  (λ s, (s.1, response)) <$> steps.

(** [int(s)] on a decimal string, the inverse of [str]. *)
Definition int (s : string) : option Z :=
  Z.of_int <$> NilZero.int_of_string s.

(** The two transcripts a run can leave: none yet, or one sample prompt
    with the canned reply. *)
Definition transcript_ok (self : ChatUser) : Prop :=
  messages self = []
  ∨ ∃ prompt, prompt ∈ SAMPLE_PROMPTS
      ∧ messages self = [message "user" prompt;
                         message "assistant" "This is a test response."].
(** *** Status 429 *)

Lemma burst_tolerates_429 response :
  status_code response = 429 → verdict (rapid_requests response) = Some Success.
Proof. intros H. unfold rapid_requests. simpl. by rewrite H. Qed.

Lemma chat_tasks_fail_429 self other r1 r2 response :
  status_code response = 429 →
  Forall (λ v, v = Some (Failure "Rate limited"))
         (chat_tasks_verdicts self other r1 r2 response).
Proof.
  intros H. unfold chat_tasks_verdicts, chat_tasks_checks. simpl.
  repeat apply Forall_cons_2; try apply Forall_nil_2; simpl; by rewrite H.
Qed.

(** C1.  On a response with status 429 the burst task [rapid_requests],
    which tolerates 429, marks a success, and each chat task under the
    default policy ([chat_simple], [chat_conversation],
    [test_tool_endpoint], and also [chat_heavy] and [chat_endpoint]) marks
    a failure whose reason has ["rate limited"] in it: the reason is
    ["Rate limited"]. *)
Theorem status_429_by_task (self : ChatUser)
    (other : loadtesting.ChatGPTPhilippinesUser) (r1 r2 : nat)
    (response : Response) (H429 : status_code response = 429) :
  verdict (rapid_requests response) = Some Success
  ∧ Forall (λ v, v = Some (Failure "Rate limited")
                 ∧ rate_limited_failure_nocase v = true)
           (chat_tasks_verdicts self other r1 r2 response).
Proof.
  split; [by apply burst_tolerates_429|].
  eapply Forall_impl; [by apply chat_tasks_fail_429|].
  intros v ->. split; [done|]. by vm_compute.
Qed.

Lemma status_429_by_task_witness :
  verdict (rapid_requests {| status_code := 429 |}) = Some Success
  ∧ Forall (λ v, v = Some (Failure "Rate limited")
                 ∧ rate_limited_failure_nocase v = true)
           (chat_tasks_verdicts (on_start 0) loadtesting.on_start 3 1
                                {| status_code := 429 |}).
Proof.
  apply (status_429_by_task (on_start 0) loadtesting.on_start 3 1
                            {| status_code := 429 |}).
  reflexivity.
Defined.

(** *** Status 200 to 299 *)

(** C2, as amended.  Under the default policy (the chain of [chat_simple],
    [chat_conversation], [test_tool_endpoint], [chat_heavy] and
    [chat_endpoint]) a status code in [200, 299] is a success exactly when
    it is 200; every other code of the range is a failure whose reason
    names the code. *)
Theorem status_2xx_default_policy (self : ChatUser)
    (other : loadtesting.ChatGPTPhilippinesUser) (r1 r2 : nat)
    (response : Response)
    (H2xx : (200 ≤ status_code response ≤ 299)%Z) :
  Forall (λ check,
            (status_code response = 200 → check.2 = Some Success)
            ∧ (status_code response ≠ 200 →
               check.2 = Some (Failure (check.1 +:+ str (status_code response)))))
         (chat_tasks_checks self other r1 r2 response).
Proof.
  unfold chat_tasks_checks.
  repeat apply Forall_cons_2; try apply Forall_nil_2; simpl;
    (split; intros H; [by rewrite H|]);
    destruct (Z.eqb_spec (status_code response) 200) as [|_]; try done;
    destruct (Z.eqb_spec (status_code response) 429) as [E|_];
    first [lia|done].
Qed.

Lemma status_2xx_default_policy_witness :
  Forall (λ check,
            (204 = 200 → check.2 = Some Success)
            ∧ (204 ≠ 200 → check.2 = Some (Failure (check.1 +:+ str 204))))
         (chat_tasks_checks (on_start 0) loadtesting.on_start 3 1
                            {| status_code := 204 |}).
Proof.
  apply (status_2xx_default_policy (on_start 0) loadtesting.on_start 3 1
                                   {| status_code := 204 |}).
  simpl. lia.
Defined.

(** C2, as stated, fails: 201 lies in [200, 299] and [chat_simple] marks
    it as a failure. *)
Lemma status_201_is_a_failure :
  verdict (chat_simple (on_start 0) 0 {| status_code := 201 |}).2
    = Some (Failure "Got status code 201").
Proof. reflexivity. Qed.

(** *** The per-call timeout *)

(** C9.  The request of [chat_heavy] is sent with a timeout of 60 seconds,
    whatever the client's default is; every other task of the two files
    passes no timeout, so its request is sent with the default. *)
Theorem heavy_request_timeout (default_timeout : option Z)
    (self : ChatUser) (other : loadtesting.ChatGPTPhilippinesUser)
    (r1 r2 : nat) (response : Response) :
  effective_timeout default_timeout (request (chat_heavy response)) = Some 60
  ∧ (∀ t, effective_timeout default_timeout
            (request (invoke t self r1 response).2) = default_timeout)
  ∧ effective_timeout default_timeout (request (rapid_requests response))
    = default_timeout
  ∧ (∀ t, effective_timeout default_timeout
            (request (loadtesting.invoke t other r1 r2 response))
          = default_timeout)
  ∧ effective_timeout default_timeout
      (request (loadtesting.stress_test_chat response)) = default_timeout
  ∧ effective_timeout default_timeout
      (request (loadtesting.premium_request response)) = default_timeout.
Proof.
  repeat split; try done; by intros [].
Qed.

(** *** The conversation transcript *)

Lemma invoke_other t self r response :
  is_conversation t = false → (invoke t self r response).1 = self.
Proof. by destruct t. Qed.

Lemma conversation_settled self r response :
  length (messages self) = 2%nat → (chat_conversation self r response).1 = self.
Proof. intros H. unfold chat_conversation. simpl. by rewrite H. Qed.

Lemma conversation_warm_up self r response :
  messages self = [] →
  messages (chat_conversation self r response).1
    = [message "user" (random_choice SAMPLE_PROMPTS r);
       message "assistant" "This is a test response."].
Proof. intros H. unfold chat_conversation. simpl. by rewrite H. Qed.

Lemma run_settled steps : ∀ self,
  length (messages self) = 2%nat → run self steps = self.
Proof.
  induction steps as [|[[t r] response] rest IH]; intros self H; [done|].
  simpl. destruct (is_conversation t) eqn:Ht.
  - destruct t; try discriminate. cbn [invoke].
    rewrite conversation_settled by done. by apply IH.
  - rewrite invoke_other by done. by apply IH.
Qed.

Lemma run_before_conversation steps : ∀ self,
  forallb (λ s, negb (is_conversation s.1.1)) steps = true →
  run self steps = self.
Proof.
  induction steps as [|[[t r] response] rest IH]; intros self H; [done|].
  simpl in *. apply andb_true_iff in H as [Ht Hrest].
  apply negb_true_iff in Ht. rewrite invoke_other by done. by apply IH.
Qed.

Lemma run_transcript_length steps : ∀ self,
  messages self = [] ∨ length (messages self) = 2%nat →
  messages (run self steps) = [] ∨ length (messages (run self steps)) = 2%nat.
Proof.
  induction steps as [|[[t r] response] rest IH]; intros self H; [done|].
  simpl. apply IH. destruct (is_conversation t) eqn:Ht.
  - destruct t; try discriminate. cbn [invoke]. destruct H as [H|H].
    + right. by rewrite conversation_warm_up.
    + right. by rewrite conversation_settled.
  - by rewrite invoke_other.
Qed.

Lemma conversation_payload self r response :
  messages self = [] ∨ length (messages self) = 2%nat →
  payload_messages (chat_conversation self r response).2 = Some 3%nat.
Proof.
  intros [H|H]; unfold payload_messages, chat_conversation; simpl.
  - by rewrite H.
  - rewrite H. simpl. unfold messages_len. simpl.
    by rewrite length_app, H.
Qed.

(** C10.  The transcript is empty after [on_start]; the first invocation
    of [chat_conversation] (after any invocations [pre] of the other
    tasks) leaves exactly two entries in it, a user message followed by an
    assistant message; no invocation [post] of any task changes it
    afterwards; and every request of [chat_conversation] carries exactly
    three messages. *)
Theorem conversation_transcript (r0 r : nat) (response : Response)
    (pre post : list (ChatUserTask * nat * Response))
    (Hfirst : forallb (λ s, negb (is_conversation s.1.1)) pre = true) :
  messages (on_start r0) = []
  ∧ messages (chat_conversation (run (on_start r0) pre) r response).1
    = [message "user" (random_choice SAMPLE_PROMPTS r);
       message "assistant" "This is a test response."]
  ∧ messages (run (chat_conversation (run (on_start r0) pre) r response).1 post)
    = messages (chat_conversation (run (on_start r0) pre) r response).1
  ∧ (∀ steps r' response',
       payload_messages
         (chat_conversation (run (on_start r0) steps) r' response').2
       = Some 3%nat).
Proof.
  rewrite run_before_conversation by done.
  assert (Hwarm := conversation_warm_up (on_start r0) r response eq_refl).
  split; [reflexivity|]. split; [exact Hwarm|]. split.
  - rewrite run_settled; [done|]. by rewrite Hwarm.
  - intros steps r' response'. apply conversation_payload.
    apply run_transcript_length. by left.
Qed.

Lemma conversation_transcript_witness :
  messages (on_start 7) = []
  ∧ messages (chat_conversation
                (run (on_start 7) [(ChatSimple, 1%nat, {| status_code := 200 |})])
                4 {| status_code := 429 |}).1
    = [message "user" (random_choice SAMPLE_PROMPTS 4);
       message "assistant" "This is a test response."]
  ∧ messages (run (chat_conversation
                (run (on_start 7) [(ChatSimple, 1%nat, {| status_code := 200 |})])
                4 {| status_code := 429 |}).1
                [(ChatConversation, 2%nat, {| status_code := 200 |})])
    = messages (chat_conversation
                (run (on_start 7) [(ChatSimple, 1%nat, {| status_code := 200 |})])
                4 {| status_code := 429 |}).1
  ∧ (∀ steps r' response',
       payload_messages
         (chat_conversation (run (on_start 7) steps) r' response').2
       = Some 3%nat).
Proof.
  apply (conversation_transcript 7 4 {| status_code := 429 |}
           [(ChatSimple, 1%nat, {| status_code := 200 |})]
           [(ChatConversation, 2%nat, {| status_code := 200 |})]).
  reflexivity.
Defined.

(** ** Further properties of the profiles *)

(** *** Decimal strings *)

Lemma to_int_not_nil (n : Z) :
  Z.to_int n ≠ Decimal.Pos Decimal.Nil ∧ Z.to_int n ≠ Decimal.Neg Decimal.Nil.
Proof.
  destruct n as [|p|p]; simpl; split; try discriminate;
    intros [= H]; by apply (DecimalPos.Unsigned.to_uint_nonnil p).
Qed.

Lemma int_str (n : Z) : int (str n) = Some n.
Proof.
  unfold int, str. destruct (to_int_not_nil n) as [Hp Hn].
  rewrite NilZero.isi by done. simpl. by rewrite DecimalZ.of_to.
Qed.

Lemma str_inj (a b : Z) : str a = str b → a = b.
Proof.
  intros H. apply (f_equal int) in H. rewrite !int_str in H. congruence.
Qed.

Lemma append_inj (p a b : string) : p +:+ a = p +:+ b → a = b.
Proof. induction p as [|c p IH]; simpl; [done|]. intros [= H]. auto. Qed.

(** *** Draws *)

Lemma random_choice_elem (seq : list string) (r : nat) :
  seq ≠ [] → random_choice seq r ∈ seq.
Proof.
  intros Hne. unfold random_choice. apply list_elem_of_In, nth_In.
  apply Nat.mod_upper_bound. by destruct seq.
Qed.

Lemma tool_endpoint_cases (P : string → Prop) (r : nat) :
  Forall P TOOL_ENDPOINTS → P (random_choice TOOL_ENDPOINTS r).
Proof.
  rewrite Forall_forall. intros H. apply H. by apply random_choice_elem.
Qed.

Lemma tool_name_not_burst (r : nat) :
  Some (random_choice TOOL_ENDPOINTS r +:+ " [tool]")
  ≠ Some "/api/chat [burst]".
Proof.
  apply (tool_endpoint_cases (λ e, Some (e +:+ " [tool]") ≠ Some _)).
  repeat apply Forall_cons_2; try apply Forall_nil_2; discriminate.
Qed.

(** *** The mark of every task, for every status code *)

Ltac case_status response :=
  destruct (Z.eqb_spec (status_code response) 200);
  try destruct (Z.eqb_spec (status_code response) 429).

(** X1.  Every task that catches its response marks it, whatever the
    status code is: as a success exactly when the code is 200 (for the
    burst task, 200 or 429), as a failure otherwise.  A task that does not
    catch its response never marks it. *)
Theorem marks_by_status (self : ChatUser)
    (other : loadtesting.ChatGPTPhilippinesUser) (r r1 r2 : nat)
    (response : Response) :
  Forall (λ c,
            if catch_response (request c)
            then ∃ v, verdict c = Some v
                      ∧ (v = Success ↔
                         status_code response = 200
                         ∨ (status_code response = 429 ∧ is_burst c = true))
            else verdict c = None)
         (load_testing_calls self r response
            ++ loadtesting_calls other r1 r2 response).
Proof.
  unfold load_testing_calls, loadtesting_calls.
  repeat apply Forall_cons_2; try apply Forall_nil_2; simpl; try done;
    case_status response; eexists; (split; [reflexivity|]);
    unfold is_burst; rewrite bool_decide_eq_true; simpl;
    split; try done;
    intuition (try lia; try congruence);
    match goal with
    | H : Some (random_choice _ _ +:+ _) = _ |- _ =>
        by apply tool_name_not_burst in H
    end.
Qed.

Lemma failure_reason_inj (p : string) (a b : Z) :
  Some (Failure (p +:+ str a)) = Some (Failure (p +:+ str b)) → a = b.
Proof. intros [= H]. by apply append_inj, str_inj in H. Qed.

(** X2.  The mark of a task other than the burst task identifies the
    status code: two responses that the same task marks alike have the
    same status code, since a failure's reason spells the code out. *)
Theorem mark_identifies_status (self : ChatUser)
    (other : loadtesting.ChatGPTPhilippinesUser) (r r1 r2 : nat)
    (response1 response2 : Response) :
  Forall2 (λ c1 c2,
             catch_response (request c1) = true → is_burst c1 = false →
             verdict c1 = verdict c2 →
             status_code response1 = status_code response2)
          (load_testing_calls self r response1
             ++ loadtesting_calls other r1 r2 response1)
          (load_testing_calls self r response2
             ++ loadtesting_calls other r1 r2 response2).
Proof.
  unfold load_testing_calls, loadtesting_calls.
  repeat apply Forall2_cons_2; try apply Forall2_nil_2;
    cbn [verdict request catch_response chat_simple chat_conversation
         test_tool_endpoint check_health view_homepage chat_heavy
         rapid_requests loadtesting.chat_endpoint
         loadtesting.translate_endpoint loadtesting.grammar_check_endpoint
         loadtesting.summarize_endpoint loadtesting.paraphrase_endpoint
         loadtesting.health_check loadtesting.metrics_check
         loadtesting.stress_test_chat loadtesting.premium_request snd];
    intros Hcatch Hburst Hsame; try discriminate;
    try (vm_compute in Hburst; discriminate);
    case_status response1; case_status response2;
    try congruence; try discriminate;
    by apply failure_reason_inj in Hsame.
Qed.

(** *** The attributes of a [ChatUser] *)

Lemma invoke_state_response t self r response1 response2 :
  (invoke t self r response1).1 = (invoke t self r response2).1.
Proof. by destruct t. Qed.

Lemma invoke_session_id t self r response :
  session_id (invoke t self r response).1 = session_id self.
Proof.
  destruct t; try done. unfold invoke, chat_conversation. simpl.
  by destruct (_ <? _)%nat.
Qed.

(** X3.  The two attributes the profile keeps on a [ChatUser] never take
    anything from a response: after any run of task invocations the
    transcript [messages] is the same whatever the target answered, and
    the session id is still the one [on_start] drew. *)
Theorem attributes_ignore_responses (self : ChatUser)
    (steps : list (ChatUserTask * nat * Response)) (response : Response) :
  messages (run self steps) = messages (run self (with_response response steps))
  ∧ session_id (run self steps) = session_id self.
Proof.
  revert self. induction steps as [|[[t r] resp] rest IH]; intros self; [done|].
  destruct (IH (invoke t self r resp).1) as [IHrun IHid].
  split.
  - cbn [run with_response fmap list_fmap fst snd].
    rewrite (invoke_state_response t self r response resp). apply IHrun.
  - cbn [run]. by rewrite IHid, invoke_session_id.
Qed.

(** X4.  The session id is never sent and never read: the request and the
    mark of every task are the same for two user objects that differ in
    their session id only. *)
Theorem session_id_unused (t : ChatUserTask) (self : ChatUser)
    (other_id : string) (r : nat) (response : Response) :
  (invoke t {| session_id := other_id; messages := messages self |}
          r response).2
  = (invoke t self r response).2.
Proof.
  destruct t; try done.
  unfold invoke, chat_conversation. simpl. by destruct (_ <? _)%nat.
Qed.

(** X5.  [chat_conversation] is idempotent on the user object: invoked
    twice in a row, with any draws and responses and from any transcript
    (also one that no run reaches, such as a single entry), it leaves the
    user object the first invocation left. *)
Theorem conversation_idempotent (self : ChatUser) (r r' : nat)
    (response response' : Response) :
  (chat_conversation (chat_conversation self r response).1 r' response').1
  = (chat_conversation self r response).1.
Proof.
  unfold chat_conversation at 2 3.
  destruct (Nat.ltb_spec (length (messages self)) 2) as [Hlt|Hge]; simpl.
  - unfold chat_conversation. simpl. rewrite !length_app. simpl.
    destruct (Nat.ltb_spec (length (messages self) + 1 + 1) 2); [lia|done].
  - unfold chat_conversation. simpl.
    destruct (Nat.ltb_spec (length (messages self)) 2); [lia|done].
Qed.

(** X6.  Once the transcript holds two entries, every invocation of
    [chat_conversation] sends the very same request: the draw is not used
    any more and the response plays no part. *)
Theorem conversation_request_fixed (self : ChatUser) (r r' : nat)
    (response response' : Response)
    (Hwarm : length (messages self) = 2%nat) :
  request (chat_conversation self r response).2
  = request (chat_conversation self r' response').2.
Proof. unfold chat_conversation. simpl. by rewrite Hwarm. Qed.

Lemma conversation_request_fixed_witness :
  request (chat_conversation
             (chat_conversation (on_start 7) 4 {| status_code := 200 |}).1
             1 {| status_code := 200 |}).2
  = request (chat_conversation
             (chat_conversation (on_start 7) 4 {| status_code := 200 |}).1
             8 {| status_code := 503 |}).2.
Proof.
  apply (conversation_request_fixed
           (chat_conversation (on_start 7) 4 {| status_code := 200 |}).1
           1 8 {| status_code := 200 |} {| status_code := 503 |}).
  reflexivity.
Defined.

(** *** Statistics names and paths *)

Lemma load_testing_names self r response :
  (λ c, name (request c)) <$> load_testing_calls self r response
  = [Some "/api/chat [simple]"; Some "/api/chat [conversation]";
     Some (random_choice TOOL_ENDPOINTS r +:+ " [tool]");
     Some "/api/health"; Some "Homepage";
     Some "/api/chat [heavy]"; Some "/api/chat [burst]"].
Proof. reflexivity. Qed.

Lemma tool_name_fresh (r : nat) (n : string) :
  n ∈ ["/api/chat [simple]"; "/api/chat [conversation]"; "/api/health";
       "Homepage"; "/api/chat [heavy]"; "/api/chat [burst]"] →
  random_choice TOOL_ENDPOINTS r +:+ " [tool]" ≠ n.
Proof.
  intros Hn.
  apply (tool_endpoint_cases (λ e, e +:+ " [tool]" ≠ n)).
  repeat (apply elem_of_cons in Hn as [->|Hn]);
    [..|by apply elem_of_nil in Hn];
    repeat apply Forall_cons_2; try apply Forall_nil_2; discriminate.
Qed.

(** X7.  No two tasks of [load-testing/locustfile.py] ever report under
    the same statistics name, although four of them post to the same
    path: if two calls, made with any user objects, draws and responses,
    carry the same name, they are calls of the same task. *)
Theorem stats_names_distinct (self self' : ChatUser) (r r' : nat)
    (response response' : Response) (i j : nat) (c c' : Call)
    (Hi : load_testing_calls self r response !! i = Some c)
    (Hj : load_testing_calls self' r' response' !! j = Some c')
    (Hname : name (request c) = name (request c')) :
  i = j.
Proof.
  apply (f_equal (fmap (λ c, name (request c)))) in Hi, Hj.
  rewrite <-!list_lookup_fmap, !load_testing_names in Hi, Hj.
  simpl in Hi, Hj. rewrite <-Hname in Hj. clear Hname.
  generalize dependent (name (request c)). intros n Hi Hj.
  do 7 (destruct i as [|i]; [
    do 7 (destruct j as [|j]; [
      first [ done
            | exfalso; simpl in Hi, Hj; rewrite <-Hi in Hj;
              injection Hj as Hj;
              first [ discriminate Hj
                    | by eapply tool_name_fresh; [|exact Hj];
                      repeat constructor
                    | by eapply tool_name_fresh; [|symmetry; exact Hj];
                      repeat constructor ] ] |]);
    by destruct j |]).
  by destruct i.
Qed.

Lemma stats_names_distinct_witness : 5%nat = 5%nat.
Proof.
  apply (stats_names_distinct (on_start 1) (on_start 2) 3 4
           {| status_code := 200 |} {| status_code := 503 |} 5 5
           (chat_heavy {| status_code := 200 |})
           (chat_heavy {| status_code := 503 |}));
    reflexivity.
Defined.

(** X8.  Whatever a [ChatUser], a [HeavyUser] or a [BurstUser] draws, its
    requests go to [/api/chat], [/api/health], [/] or one of the eight
    tool endpoints and nowhere else; the tool task always picks one of the
    eight endpoints, and the prompt [chat_simple] sends is always one of
    the sample prompts. *)
Theorem requests_stay_on_known_paths (self : ChatUser) (r : nat)
    (response : Response) :
  Forall (λ c, url (request c) ∈ load_testing_urls)
         (load_testing_calls self r response)
  ∧ url (request (test_tool_endpoint self r response).2) ∈ TOOL_ENDPOINTS
  ∧ ∃ prompt, prompt ∈ SAMPLE_PROMPTS
      ∧ payload_list (chat_simple self r response).2
        = Some [message "user" prompt].
Proof.
  assert (random_choice TOOL_ENDPOINTS r ∈ TOOL_ENDPOINTS) as Htool
    by by apply random_choice_elem.
  split; [|split].
  - unfold load_testing_calls, load_testing_urls.
    repeat apply Forall_cons_2; try apply Forall_nil_2; simpl;
      try by repeat constructor.
    by do 3 apply list_elem_of_further.
  - done.
  - exists (random_choice SAMPLE_PROMPTS r). split; [|done].
    by apply random_choice_elem.
Qed.

(** *** The conversation payload *)

Lemma invoke_transcript_ok t self r response :
  transcript_ok self → transcript_ok (invoke t self r response).1.
Proof.
  intros Hok. destruct t; try done.
  unfold invoke, chat_conversation. simpl. destruct Hok as [H|(p & Hp & H)].
  - rewrite H. simpl. right. exists (random_choice SAMPLE_PROMPTS r).
    split; [by apply random_choice_elem|done].
  - rewrite H. simpl. right. by exists p.
Qed.

Lemma run_transcript_ok steps : ∀ self,
  transcript_ok self → transcript_ok (run self steps).
Proof.
  induction steps as [|[[t r] response] rest IH]; intros self Hok; [done|].
  simpl. by apply IH, invoke_transcript_ok.
Qed.

(** X9.  Every request of [chat_conversation], at any point of any run
    that starts with [on_start], carries exactly these three messages: a
    user message with one of the sample prompts, the canned assistant
    reply, and the fixed follow-up question as a user message.  The roles
    alternate and nothing the target answered is in it. *)
Theorem conversation_payload_shape (r0 r : nat) (response : Response)
    (steps : list (ChatUserTask * nat * Response)) :
  ∃ prompt, prompt ∈ SAMPLE_PROMPTS
    ∧ payload_list (chat_conversation (run (on_start r0) steps) r response).2
      = Some [message "user" prompt;
              message "assistant" "This is a test response.";
              message "user" "Can you explain that in more detail?"].
Proof.
  assert (transcript_ok (run (on_start r0) steps)) as Hok
    by (apply run_transcript_ok; by left).
  unfold payload_list, chat_conversation. simpl.
  destruct Hok as [H|(p & Hp & H)]; rewrite H; simpl.
  - exists (random_choice SAMPLE_PROMPTS r).
    split; [by apply random_choice_elem|done].
  - exists p. split; [done|]. by rewrite H.
Qed.

(** *** The session id *)

Lemma length_append (s1 s2 : string) :
  String.length (s1 +:+ s2) = (String.length s1 + String.length s2)%nat.
Proof. induction s1 as [|c s1 IH]; simpl; [done|]. by rewrite IH. Qed.

Lemma str_four_digits (n : Z) :
  (1000 ≤ n ≤ 9999)%Z → String.length (str n) = 4%nat.
Proof.
  assert (Forall (λ n, String.length (str n) = 4%nat) (seqZ 1000 9000))
    as Hall by (apply (bool_decide_unpack _); vm_compute; exact I).
  rewrite Forall_seqZ in Hall. intros Hn. apply Hall. lia.
Qed.

(** X10.  The session id [on_start] gives a user is always ["session_"]
    followed by a number between 1000 and 9999, twelve characters in all,
    whatever the generator draws. *)
Theorem session_id_format (r : nat) :
  ∃ n, (1000 ≤ n ≤ 9999)%Z
    ∧ session_id (on_start r) = "session_" +:+ str n
    ∧ String.length (session_id (on_start r)) = 12%nat.
Proof.
  exists (random_randint 1000 9999 r).
  assert (1000 ≤ random_randint 1000 9999 r ≤ 9999)%Z as Hb.
  { unfold random_randint.
    pose proof (Z.mod_pos_bound (Z.of_nat r) (9999 - 1000 + 1) ltac:(lia)).
    lia. }
  split; [done|]. split; [done|].
  unfold on_start. cbn [session_id].
  by rewrite length_append, str_four_digits.
Qed.

(** *** The draws of [ChatGPTPhilippinesUser] *)

(** X11.  With the non-empty prompt and model lists [on_start] sets up,
    [chat_endpoint] always sends one user message holding one of the
    prompts and asks for one of the models, and [translate_endpoint]
    always sends one of the prompts with one of the three target
    languages, whatever the draws. *)
Theorem chat_endpoint_choices (self : loadtesting.ChatGPTPhilippinesUser)
    (r1 r2 : nat) (response : Response)
    (Hprompts : loadtesting.prompts self ≠ [])
    (Hmodels : loadtesting.models self ≠ []) :
  (∃ prompt model,
     prompt ∈ loadtesting.prompts self ∧ model ∈ loadtesting.models self
     ∧ payload_list (loadtesting.chat_endpoint self r1 r2 response)
       = Some [message "user" prompt]
     ∧ payload_str "model" (loadtesting.chat_endpoint self r1 r2 response)
       = Some model)
  ∧ (∃ text language,
       text ∈ loadtesting.prompts self
       ∧ language ∈ ["Tagalog"; "Cebuano"; "Ilocano"]
       ∧ payload_str "text" (loadtesting.translate_endpoint self r1 r2 response)
         = Some text
       ∧ payload_str "targetLanguage"
           (loadtesting.translate_endpoint self r1 r2 response)
         = Some language).
Proof.
  split.
  - exists (random_choice (loadtesting.prompts self) r1),
           (random_choice (loadtesting.models self) r2).
    repeat split; try done; by apply random_choice_elem.
  - exists (random_choice (loadtesting.prompts self) r1),
           (random_choice ["Tagalog"; "Cebuano"; "Ilocano"] r2).
    repeat split; try done; by apply random_choice_elem.
Qed.

Lemma chat_endpoint_choices_witness :
  (∃ prompt model,
     prompt ∈ loadtesting.prompts loadtesting.on_start
     ∧ model ∈ loadtesting.models loadtesting.on_start
     ∧ payload_list (loadtesting.chat_endpoint loadtesting.on_start 13 4
                       {| status_code := 200 |})
       = Some [message "user" prompt]
     ∧ payload_str "model" (loadtesting.chat_endpoint loadtesting.on_start 13 4
                              {| status_code := 200 |})
       = Some model)
  ∧ (∃ text language,
       text ∈ loadtesting.prompts loadtesting.on_start
       ∧ language ∈ ["Tagalog"; "Cebuano"; "Ilocano"]
       ∧ payload_str "text" (loadtesting.translate_endpoint
                               loadtesting.on_start 13 4 {| status_code := 200 |})
         = Some text
       ∧ payload_str "targetLanguage"
           (loadtesting.translate_endpoint
              loadtesting.on_start 13 4 {| status_code := 200 |})
         = Some language).
Proof.
  apply (chat_endpoint_choices loadtesting.on_start 13 4
                               {| status_code := 200 |});
    discriminate.
Defined.
(** ** The engine *)

Import Engine.

(** *** Candidates of a selection *)

Lemma elem_of_candidates {T} (tasks : list (TaskDecl T)) f d :
  d ∈ candidates tasks f ↔ d ∈ tasks ∧ eligible f d = true.
Proof.
  unfold candidates. rewrite !list_elem_of_In. apply filter_In.
Qed.

Lemma eligible_tags {T} (f : gset string) (d : TaskDecl T) :
  eligible (Some f) d = true ↔ tags d = ∅ ∨ tags d ∩ f ≠ ∅.
Proof.
  unfold eligible. rewrite orb_true_iff, !bool_decide_eq_true. done.
Qed.

Lemma candidates_nil {T} (tasks : list (TaskDecl T)) f :
  candidates tasks f = [] ↔ ∀ d, d ∈ tasks → eligible f d = false.
Proof.
  split.
  - intros Hnil d Hd. destruct (eligible f d) eqn:He; [|done].
    assert (d ∈ candidates tasks f) as Hin by by apply elem_of_candidates.
    rewrite Hnil in Hin. by apply elem_of_nil in Hin.
  - intros Hall. destruct (candidates tasks f) as [|d rest] eqn:Hc; [done|].
    assert (d ∈ candidates tasks f) as Hin by (rewrite Hc; apply list_elem_of_here).
    apply elem_of_candidates in Hin as [Hd He]. rewrite Hall in He; done.
Qed.

Lemma select_ok_candidate {T} (tasks : list (TaskDecl T)) f draw t :
  select tasks f draw = Ok t → ∃ d, d ∈ candidates tasks f ∧ task d = t.
Proof.
  unfold select. destruct (candidates tasks f) as [|c rest]; [done|].
  destruct (_ !! _) as [d|] eqn:Hk; [|done].
  intros [= <-]. exists d. split; [|done]. by eapply list_elem_of_lookup_2.
Qed.

(** C3.  Under a configured tag filter: when no task is eligible (every
    task has a non-empty tag set that misses the filter), [select] fails
    with [NoEligibleTask], whatever the draw, and so returns no task; when
    some task is eligible it does not fail that way; and a task it returns
    is always a task of the set that the filter admits. *)
Theorem select_tag_filter {T} (tasks : list (TaskDecl T)) (f : gset string)
    (draw : Z) :
  (Forall (λ d, tags d ≠ ∅ ∧ tags d ∩ f = ∅) tasks →
     select tasks (Some f) draw = Err NoEligibleTask)
  ∧ (Exists (λ d, tags d = ∅ ∨ tags d ∩ f ≠ ∅) tasks →
     select tasks (Some f) draw ≠ Err NoEligibleTask)
  ∧ (∀ t, select tasks (Some f) draw = Ok t →
       ∃ d, d ∈ tasks ∧ task d = t ∧ (tags d = ∅ ∨ tags d ∩ f ≠ ∅)).
Proof.
  split; [|split].
  - rewrite Forall_forall. intros Hnone. unfold select.
    replace (candidates tasks (Some f)) with (@nil (TaskDecl T)); [done|].
    symmetry. apply candidates_nil. intros d Hd.
    destruct (Hnone d Hd) as [Hne Hmiss].
    apply not_true_is_false. rewrite eligible_tags. intros [?|?]; done.
  - rewrite Exists_exists. intros (d & Hd & He) Hsel. unfold select in Hsel.
    destruct (candidates tasks (Some f)) as [|c rest] eqn:Hc.
    + assert (eligible (Some f) d = false) as Hf
        by (eapply candidates_nil; done).
      apply eligible_tags in He. by rewrite He in Hf.
    + by destruct (_ !! _).
  - intros t Hsel. apply select_ok_candidate in Hsel as (d & Hd & Ht).
    apply elem_of_candidates in Hd as [Hd He].
    exists d. by rewrite <-eligible_tags.
Qed.

Lemma select_tag_filter_witness :
  select loadtesting.ChatGPTPhilippinesUser_tasks (Some {["billing"]}) 3
  = Err NoEligibleTask.
Proof.
  apply (proj1 (select_tag_filter loadtesting.ChatGPTPhilippinesUser_tasks
                                  {["billing"]} 3)).
  apply (bool_decide_unpack _). vm_compute. exact I.
Defined.

(** *** Cumulative weights *)

Lemma cumulative_length ws : ∀ acc, length (cumulative acc ws) = length ws.
Proof. induction ws as [|w ws IH]; intros acc; simpl; [done|]. by rewrite IH. Qed.

Lemma total_weight_app {T} (l1 l2 : list (TaskDecl T)) :
  total_weight (l1 ++ l2) = (total_weight l1 + total_weight l2)%Z.
Proof.
  unfold total_weight. induction l1 as [|d l1 IH]; simpl; [done|].
  rewrite IH. lia.
Qed.

Lemma total_weight_take_S {T} (l : list (TaskDecl T)) k d :
  l !! k = Some d →
  total_weight (take (S k) l) = (total_weight (take k l) + weight d)%Z.
Proof.
  intros Hk. rewrite (take_S_r _ _ _ Hk), total_weight_app.
  unfold total_weight. simpl. lia.
Qed.

Lemma total_weight_nonneg {T} (l : list (TaskDecl T)) :
  Forall (λ d, 0 ≤ weight d)%Z l → (0 ≤ total_weight l)%Z.
Proof.
  unfold total_weight. induction 1 as [|d l Hd _ IH]; simpl; lia.
Qed.

Lemma total_weight_take_mono {T} (l : list (TaskDecl T)) i j :
  Forall (λ d, 0 ≤ weight d)%Z l → (i ≤ j)%nat →
  (total_weight (take i l) ≤ total_weight (take j l))%Z.
Proof.
  intros Hl Hij. replace j with (i + (j - i))%nat by lia.
  rewrite <-take_take_drop, total_weight_app.
  assert (0 ≤ total_weight (take (j - i) (drop i l)))%Z; [|lia].
  apply total_weight_nonneg. by apply Forall_take, Forall_drop.
Qed.

Lemma nth_cumulative {T} (l : list (TaskDecl T)) : ∀ acc i,
  (i < length l)%nat →
  nth i (cumulative acc (weight <$> l)) 0%Z
  = (acc + total_weight (take (S i) l))%Z.
Proof.
  induction l as [|d l IH]; intros acc i Hi; simpl in *; [lia|].
  destruct i as [|i].
  - rewrite take_0. unfold total_weight. simpl. lia.
  - rewrite IH by lia. unfold total_weight. simpl. lia.
Qed.

(** *** The binary search *)

Section bisect.
Variables (cum : list Z) (x : Z).
Hypothesis sorted : ∀ i j,
  (i ≤ j < length cum)%nat → (nth i cum 0 ≤ nth j cum 0)%Z.

Lemma bisect_go_spec : ∀ fuel lo hi,
  (lo ≤ hi ≤ length cum)%nat → (hi - lo ≤ fuel)%nat →
  (∀ i, (i < lo)%nat → (nth i cum 0 ≤ x)%Z) →
  (∀ i, (hi ≤ i < length cum)%nat → (x < nth i cum 0)%Z) →
  (lo ≤ bisect_go fuel cum x lo hi ≤ hi)%nat
  ∧ (∀ i, (i < bisect_go fuel cum x lo hi)%nat → (nth i cum 0 ≤ x)%Z)
  ∧ (∀ i, (bisect_go fuel cum x lo hi ≤ i < length cum)%nat →
          (x < nth i cum 0)%Z).
Proof using sorted.
  induction fuel as [|fuel IH]; intros lo hi Hb Hfuel Hlo Hhi;
    cbn [bisect_go].
  { assert (hi = lo) as -> by lia. repeat split; auto; lia. }
  destruct (Nat.ltb_spec lo hi) as [Hlt|Hge].
  2:{ assert (hi = lo) as -> by lia. repeat split; auto; lia. }
  pose proof (Nat.div_mod_eq (lo + hi) 2) as Hdiv.
  pose proof (Nat.mod_upper_bound (lo + hi) 2 ltac:(lia)) as Hmod.
  set (mid := ((lo + hi) / 2)%nat) in *.
  assert (lo ≤ mid < hi)%nat as Hmid.
  { clearbody mid. generalize dependent ((lo + hi) `mod` 2)%nat. lia. }
  clear Hdiv Hmod.
  destruct (Z.ltb_spec x (nth mid cum 0)) as [Hx|Hx].
  - destruct (IH lo mid) as (Hk & Hbelow & Habove); try lia; auto.
    { intros i Hi. pose proof (sorted mid i). lia. }
    repeat split; auto; lia.
  - destruct (IH (mid + 1)%nat hi) as (Hk & Hbelow & Habove); try lia; auto.
    { intros i Hi. pose proof (sorted i mid). lia. }
    repeat split; auto; lia.
Qed.

Lemma bisect_spec :
  (bisect cum x ≤ length cum)%nat
  ∧ (∀ i, (i < bisect cum x)%nat → (nth i cum 0 ≤ x)%Z)
  ∧ (∀ i, (bisect cum x ≤ i < length cum)%nat → (x < nth i cum 0)%Z).
Proof using sorted.
  unfold bisect.
  destruct (bisect_go_spec (length cum) 0 (length cum)) as (Hk & ? & ?);
    try lia; auto.
  repeat split; auto; lia.
Qed.
End bisect.

Lemma cumulative_sorted {T} (l : list (TaskDecl T)) i j :
  Forall (λ d, 0 ≤ weight d)%Z l →
  (i ≤ j < length (cumulative 0 (weight <$> l)))%nat →
  (nth i (cumulative 0 (weight <$> l)) 0 ≤ nth j (cumulative 0 (weight <$> l)) 0)%Z.
Proof.
  rewrite cumulative_length, length_fmap. intros Hl Hij.
  rewrite !nth_cumulative by lia.
  pose proof (total_weight_take_mono l (S i) (S j) Hl). lia.
Qed.

(** *** The selected task *)

Lemma select_unfold {T} (tasks : list (TaskDecl T)) f draw :
  candidates tasks f ≠ [] →
  select tasks f draw =
    match candidates tasks f
          !! bisect (cumulative 0 (weight <$> candidates tasks f)) draw with
    | Some d => Ok (task d)
    | None => Err DrawOutOfRange
    end.
Proof. unfold select. by destruct (candidates tasks f). Qed.

Lemma candidates_weights {T} (P : Z → Prop) (tasks : list (TaskDecl T)) f :
  Forall (λ d, P (weight d)) tasks →
  Forall (λ d, P (weight d)) (candidates tasks f).
Proof.
  rewrite !Forall_forall. intros H d Hd.
  apply elem_of_candidates in Hd as [Hd _]. by apply H.
Qed.

Lemma select_in_range {T} (tasks : list (TaskDecl T)) f draw :
  Forall (λ d, 0 < weight d)%Z tasks →
  (0 ≤ draw < total_weight (candidates tasks f))%Z →
  ∃ k d,
    candidates tasks f !! k = Some d
    ∧ select tasks f draw = Ok (task d)
    ∧ (total_weight (take k (candidates tasks f)) ≤ draw
       < total_weight (take k (candidates tasks f)) + weight d)%Z.
Proof.
  intros Hpos Hdraw.
  assert (Forall (λ d, 0 ≤ weight d)%Z (candidates tasks f)) as Hnonneg.
  { eapply Forall_impl; [by apply (candidates_weights (λ w, 0 < w)%Z)|].
    simpl. lia. }
  assert (candidates tasks f ≠ []) as Hne.
  { intros Hnil. rewrite Hnil in Hdraw. unfold total_weight in Hdraw.
    simpl in Hdraw. lia. }
  rewrite select_unfold by done.
  set (cands := candidates tasks f) in *.
  set (cum := cumulative 0 (weight <$> cands)).
  assert (length cum = length cands) as Hlen
    by (unfold cum; by rewrite cumulative_length, length_fmap).
  destruct (bisect_spec cum draw) as (Hle & Hbelow & Habove).
  { intros i j Hij. by apply cumulative_sorted. }
  set (k := bisect cum draw) in *.
  assert (k < length cands)%nat as Hk.
  { destruct (decide (k < length cands)%nat) as [|Hge]; [done|].
    assert (0 < length cands)%nat by (destruct cands; simpl; [done|lia]).
    pose proof (Hbelow (length cands - 1)%nat ltac:(lia)) as Hlast.
    unfold cum in Hlast. rewrite nth_cumulative in Hlast by lia.
    replace (S (length cands - 1)) with (length cands) in Hlast by lia.
    rewrite firstn_all in Hlast. lia. }
  destruct (lookup_lt_is_Some_2 cands k Hk) as [d Hd].
  exists k, d. rewrite Hd. split; [done|]. split; [done|]. split.
  - destruct k as [|k']; [rewrite take_0; unfold total_weight; simpl; lia|].
    pose proof (Hbelow k' ltac:(lia)) as Hprev.
    unfold cum in Hprev. rewrite nth_cumulative in Hprev by lia. lia.
  - pose proof (Habove k ltac:(lia)) as Hnext.
    unfold cum in Hnext. rewrite nth_cumulative in Hnext by lia.
    rewrite (total_weight_take_S _ _ _ Hd) in Hnext. lia.
Qed.

Lemma selects_unique {T} (tasks : list (TaskDecl T)) f draw t1 t2 :
  Forall (λ d, 0 ≤ weight d)%Z (candidates tasks f) →
  selects tasks f draw t1 → selects tasks f draw t2 → t1 = t2.
Proof.
  intros Hnonneg (k1 & d1 & Hd1 & <- & Hin1) (k2 & d2 & Hd2 & <- & Hin2).
  assert (k1 = k2) as ->.
  { destruct (lt_eq_lt_dec k1 k2) as [[Hlt|]|Hlt]; [|done|].
    - pose proof (total_weight_take_mono _ (S k1) k2 Hnonneg ltac:(lia)).
      rewrite (total_weight_take_S _ _ _ Hd1) in *. lia.
    - pose proof (total_weight_take_mono _ (S k2) k1 Hnonneg ltac:(lia)).
      rewrite (total_weight_take_S _ _ _ Hd2) in *. lia. }
  congruence.
Qed.

(** C7.  For a task set with positive weights and a draw within
    [0, totalWeight) of the candidates, [select] returns a task, and that
    task is fixed by the tasks, the filter and the draw alone: it is the
    one task whose share of the cumulative weight holds the draw, so two
    runs with equal tasks, filter and draw return the same task. *)
Theorem select_deterministic {T} (tasks : list (TaskDecl T))
    (activeTagFilter : option (gset string)) (draw : Z)
    (Hpos : Forall (λ d, 0 < weight d)%Z tasks)
    (Hdraw : (0 ≤ draw < total_weight (candidates tasks activeTagFilter))%Z) :
  ∃ t,
    select tasks activeTagFilter draw = Ok t
    ∧ selects tasks activeTagFilter draw t
    ∧ (∀ t', selects tasks activeTagFilter draw t' → t' = t)
    ∧ (∀ tasks' filter' draw',
         tasks' = tasks → filter' = activeTagFilter → draw' = draw →
         select tasks' filter' draw' = Ok t).
Proof.
  destruct (select_in_range tasks activeTagFilter draw Hpos Hdraw)
    as (k & d & Hd & Hsel & Hin).
  exists (task d). split; [done|].
  assert (selects tasks activeTagFilter draw (task d)) as Hs
    by (exists k, d; done).
  split; [done|]. split.
  - intros t' Ht'. eapply selects_unique; [|done..].
    eapply Forall_impl; [by apply (candidates_weights (λ w, 0 < w)%Z)|].
    simpl. lia.
  - by intros ? ? ? -> -> ->.
Qed.

Lemma select_deterministic_witness :
  ∃ t,
    select ChatUser_tasks None 12 = Ok t
    ∧ selects ChatUser_tasks None 12 t
    ∧ (∀ t', selects ChatUser_tasks None 12 t' → t' = t)
    ∧ (∀ tasks' filter' draw',
         tasks' = ChatUser_tasks → filter' = None → draw' = 12%Z →
         select tasks' filter' draw' = Ok t).
Proof.
  apply (select_deterministic ChatUser_tasks None 12).
  - apply (bool_decide_unpack _). vm_compute. exact I.
  - vm_compute. split; [discriminate|reflexivity].
Defined.

(** The weights 10, 5, 3, 1, 1 of [ChatUser] split the draws 0..19 into
    the shares 0..9, 10..14, 15..17, 18 and 19. *)
Example ChatUser_shares :
  (λ draw, select ChatUser_tasks None draw) <$> [0; 9; 10; 14; 15; 17; 18; 19]%Z
  = Ok <$> [ChatSimple; ChatSimple; ChatConversation; ChatConversation;
            TestToolEndpoint; TestToolEndpoint; CheckHealth; ViewHomepage].
Proof. reflexivity. Qed.

(** *** Counting outcomes *)

Lemma total_count_insert_fresh (agg : gmap string StatEntry) c e :
  agg !! c = None →
  total_count (<[c:=e]> agg) = (count e + total_count agg)%Z.
Proof.
  intros Hc. unfold total_count.
  rewrite map_fold_insert_L; [done| |done]. intros; lia.
Qed.

Lemma total_count_delete (agg : gmap string StatEntry) c e :
  agg !! c = Some e →
  total_count agg = (count e + total_count (delete c agg))%Z.
Proof.
  intros Hc. unfold total_count.
  rewrite (map_fold_delete_L _ _ c e agg); [done| |done]. intros; lia.
Qed.

Lemma total_count_record agg c o v :
  total_count (record agg c o v) = (total_count agg + 1)%Z.
Proof.
  unfold record. destruct (agg !! c) as [e|] eqn:Hc.
  - rewrite <-insert_delete_eq.
    rewrite total_count_insert_fresh by apply lookup_delete_eq.
    rewrite (total_count_delete agg c e Hc). simpl. lia.
  - rewrite total_count_insert_fresh by done. simpl. lia.
Qed.

Lemma count_of_record agg c o v c' :
  count_of (record agg c o v) c'
  = (count_of agg c' + if String.eqb c c' then 1 else 0)%Z.
Proof.
  unfold count_of, record. destruct (String.eqb_spec c c') as [<-|Hne].
  - destruct (agg !! c) as [e|] eqn:Hc; rewrite lookup_insert_eq; simpl; lia.
  - destruct (agg !! c) as [e|] eqn:Hc; rewrite lookup_insert_ne by done; lia.
Qed.

Lemma produced_in_snoc c ticks t :
  produced_in c (ticks ++ [t])
  = (produced_in c ticks
     + if String.eqb (categoryName (outcome t)) c then 1 else 0)%Z.
Proof.
  unfold produced_in. rewrite List.filter_app, length_app. simpl.
  destruct (String.eqb _ _); simpl; lia.
Qed.

Lemma run_ticks_snoc ticks t :
  run_ticks (ticks ++ [t]) = user_tick (run_ticks ticks) t.
Proof. unfold run_ticks. by rewrite foldl_app. Qed.

(** C4.  At every point [n] of a run, the counts the aggregator holds,
    summed over all categories, are the number of outcomes the virtual
    users have produced so far; and category by category the count is the
    number of outcomes produced under it: none is dropped, none is counted
    twice. *)
Theorem counts_match_outcomes (ticks : list Tick) (n : nat) :
  total_count (run_ticks (take n ticks)) = Z.of_nat (length (take n ticks))
  ∧ ∀ c, count_of (run_ticks (take n ticks)) c = produced_in c (take n ticks).
Proof.
  generalize (take n ticks) as so_far. clear ticks n.
  induction so_far as [|t so_far [IHtotal IHeach]] using rev_ind.
  - split; [done|]. intros c. done.
  - rewrite run_ticks_snoc. unfold user_tick. split.
    + rewrite total_count_record, IHtotal, length_app. simpl. lia.
    + intros c. by rewrite count_of_record, IHeach, produced_in_snoc.
Qed.
